(** * The Element value model of [isc::data] and the DNS service listener

    A shallow embedding of
    - [src/lib/cc/cpp/data.h]: the class [Element], its six concrete
      subclasses and the methods the header defines inline;
    - [src/lib/asiodns/dns_service.h]: the server flags of [DNSService].

    Conventions.
    - A C++ [int] is a [Z] in the 32-bit signed range, a [size_t] a [Z] in
      the 64-bit unsigned range (LP64); a conversion between them is
      written out ([to_size_t]).
    - A [double] is a primitive binary64 float.
    - An [ElementPtr] ([boost::shared_ptr<Element>]) is an [option
      Element]: [None] is the null handle.  Handles are modelled by value;
      no property stated below observes sharing between two handles.
    - [std::vector<ElementPtr>] is a [list ElementPtr];
      [std::map<std::string, ElementPtr>] is a [gmap string ElementPtr],
      iterated in ascending key order ([StdMap.iterate]).
    - A member function is a function from the receiver to an [outcome]:
      it returns a value, throws, or has undefined behaviour; the first
      two carry the receiver as the call leaves it.
    - A reference parameter that the function assigns ([int& t]) is an
      argument holding the variable before the call and a component of
      the result holding it after the call.

    The headers declare [str], [MapElement::find] and
    [DNSService::addServerUDPFromFD] without a body; their definitions
    below are marked as modelled from the specification and the headers'
    comments.  [toWire], [fromWire] and the [create] factories, also
    declared only, are not modelled. *)

From Stdlib Require Import ZArith Ascii Floats.PrimFloat.
From stdpp Require Import base decidable option list gmap strings sorting pretty.

Open Scope Z_scope.

(** ** Machine integers *)

Module Cxx.

Definition int_min : Z := - 2 ^ 31.
Definition int_max : Z := 2 ^ 31 - 1.

Definition is_int (z : Z) : Prop := int_min ≤ z ≤ int_max.

(** Integral conversion of an [int] argument to a [size_t] parameter. *)
Definition to_size_t (z : Z) : Z := z `mod` 2 ^ 64.

(** [static_cast<unsigned int>] of an enumeration value. *)
Definition to_unsigned (z : Z) : Z := z `mod` 2 ^ 32.

(** [~x] on an [unsigned int]. *)
Definition unsigned_not (z : Z) : Z := Z.lxor z (2 ^ 32 - 1).

End Cxx.

(** ** Exceptions and outcomes *)

Inductive exn : Type :=
  | TypeError (what : string)          (* isc::data::TypeError, data.h:39 *)
  | out_of_range (what : string).      (* std::out_of_range *)

Definition is_TypeError (x : exn) : bool :=
  match x with TypeError _ => true | _ => false end.
Definition is_out_of_range (x : exn) : bool :=
  match x with out_of_range _ => true | _ => false end.

(** What a call on a receiver of type [S] does. *)
Inductive outcome (S A : Type) : Type :=
  | Returns (a : A) (this : S)
  | Throws (x : exn) (this : S)
  | Undefined.
Arguments Returns {S A} a this.
Arguments Throws {S A} x this.
Arguments Undefined {S A}.

Definition succeeds {S A} (o : outcome S A) : bool :=
  match o with Returns _ _ => true | _ => false end.

Definition throws_TypeError {S A} (o : outcome S A) : bool :=
  match o with Throws x _ => is_TypeError x | _ => false end.

Definition throws_out_of_range {S A} (o : outcome S A) : bool :=
  match o with Throws x _ => is_out_of_range x | _ => false end.

(** The receiver after the call, when the call has defined behaviour. *)
Definition receiver_after {S A} (o : outcome S A) : option S :=
  match o with
  | Returns _ s | Throws _ s => Some s
  | Undefined => None
  end.

(** ** The data model (data.h:87-418) *)

(** [enum types { integer, real, boolean, string, list, map }], data.h:99.
    The constructors carry a [t_] because the subclasses and [std] own the
    plain names. *)
Inductive types : Type :=
  | integer | real | boolean | t_string | t_list | t_map.

Global Instance types_eq_dec : EqDecision types.
Proof. solve_decision. Defined.

(** One constructor per concrete subclass, holding the subclass's only
    data member (data.h:322, 334, 346, 358, 370, 387). *)
#[warnings="-register-all"]
Inductive Element : Type :=
  | IntElement (i : Z)
  | DoubleElement (d : float)
  | BoolElement (b : bool)
  | StringElement (s : string)
  | ListElement (l : list (option Element))
  | MapElement (m : gmap string (option Element)).

Abbreviation ElementPtr := (option Element).
Abbreviation vector := (list (option Element)).
Abbreviation std_map := (gmap string (option Element)).

Definition method (A : Type) : Type := Element → outcome Element A.

(** [Element::getType], data.h:104: the private member [type], which each
    subclass constructor passes to [Element(int t)] (data.h:96, 325, 337,
    349, 361, 373, 390) and nothing assigns afterwards. *)
Definition getType (e : Element) : types :=
  match e with
  | IntElement _ => integer
  | DoubleElement _ => real
  | BoolElement _ => boolean
  | StringElement _ => t_string
  | ListElement _ => t_list
  | MapElement _ => t_map
  end.

(** *** The base class's virtual bodies (data.h:136-242) *)

Module Base.

Definition throw {A} (what : string) : method A :=
  λ this, Throws (TypeError what) this.

Definition intValue : method Z :=
  throw "intValue() called on non-integer Element".
Definition doubleValue : method float :=
  throw "doubleValue() called on non-double Element".
Definition boolValue : method bool :=
  throw "boolValue() called on non-Bool Element".
Definition stringValue : method string :=
  throw "stringValue() called on non-string Element".
Definition listValue : method vector :=
  throw "listValue() called on non-list Element".
Definition mapValue : method std_map :=
  throw "mapValue() called on non-map Element".

(** [getValue(T& t) { return false; }]: the pair is the returned flag
    and the referenced variable after the call. *)
Definition getValue {T} (t : T) : method (bool * T) :=
  λ this, Returns (false, t) this.

(** [setValue(const T v) { return false; }] *)
Definition setValue {T} (v : T) : method bool :=
  λ this, Returns false this.

Definition get_int (i : Z) : method ElementPtr :=
  throw "get(int) called on a non-list Element".
Definition set_int (i : Z) (element : ElementPtr) : method unit :=
  throw "set(int, element) called on a non-list Element".
Definition add (element : ElementPtr) : method unit :=
  throw "add() called on a non-list Element".
Definition remove_int (i : Z) : method unit :=
  throw "remove(int) called on a non-list Element".
Definition size : method Z :=
  throw "size() called on a non-list Element".

Definition get_string (name : string) : method ElementPtr :=
  throw "get(string) called on a non-map Element".
Definition set_string (name : string) (element : ElementPtr) : method unit :=
  throw "set(name, element) called on a non-map Element".
Definition remove_string (name : string) : method unit :=
  throw "remove(string) called on a non-map Element".
Definition contains (name : string) : method bool :=
  throw "contains(string) called on a non-map Element".

(** [find(const std::string&)], data.h:237 *)
Definition find (identifier : string) : method ElementPtr :=
  throw "find(string) called on a non-map Element".
(** [find(const std::string&, ElementPtr& t) { return false; }],
    data.h:242 *)
Definition find_into (identifier : string) (t : ElementPtr)
  : method (bool * ElementPtr) :=
  λ this, Returns (false, t) this.

End Base.

(** *** The standard containers, as far as the header uses them *)

Module StdVector.

Definition size (l : vector) : Z := Z.of_nat (length l).

(** [at(n)]: the checked read; [None] is the [std::out_of_range] it
    throws when [n >= size()]. *)
Definition at_ (n : Z) (l : vector) : option ElementPtr :=
  if bool_decide (0 ≤ n < size l) then l !! Z.to_nat n else None.

(** [v[n] = e]: the unchecked write.  Its precondition is [n < size()];
    [None] is the undefined behaviour outside it. *)
Definition assign_at (n : Z) (e : ElementPtr) (l : vector) : option vector :=
  if bool_decide (0 ≤ n < size l) then Some (<[Z.to_nat n := e]> l) else None.

(** [erase(begin() + i)]: the iterator must point at an element of the
    vector; [None] is the undefined behaviour otherwise. *)
Definition erase_at (i : Z) (l : vector) : option vector :=
  if bool_decide (0 ≤ i < size l) then Some (delete (Z.to_nat i) l) else None.

Definition push_back (e : ElementPtr) (l : vector) : vector := l ++ [e].

(** [max_size()]: [PTRDIFF_MAX / sizeof(ElementPtr)], a handle being two
    pointers. *)
Definition max_size : Z := (2 ^ 63 - 1) `div` 16.

End StdVector.

Module StdMap.

(** [m[s]] read as an rvalue: the mapped handle, and the map with a
    value-initialised (null) handle inserted when the key was absent. *)
Definition index (s : string) (m : std_map) : ElementPtr * std_map :=
  match m !! s with
  | Some p => (p, m)
  | None => (None, <[s := None]> m)
  end.

(** [m[s] = p] *)
Definition assign (s : string) (p : ElementPtr) (m : std_map) : std_map :=
  <[s := p]> m.

Definition erase (s : string) (m : std_map) : std_map := delete s m.

(** [m.find(s) != m.end()] *)
Definition has (s : string) (m : std_map) : bool :=
  bool_decide (is_Some (m !! s)).

(** The order of the keys, [std::less<std::string>]: byte by byte, a
    proper prefix first. *)
Definition key_le {V} (x y : string * V) : Prop := String.le x.1 y.1.

Global Instance key_le_dec {V} : RelDecision (@key_le V).
Proof. intros x y. unfold key_le. apply _. Defined.


End StdMap.

(** *** The virtual member functions, by dynamic type

    Each function below is one virtual slot of [Element]; a branch on a
    constructor is that subclass's overrider, every other constructor
    runs the base body. *)

(** data.h:136-141 with 326, 338, 350, 362, 374, 391 *)
Definition intValue : method Z := λ this,
  match this with
  | IntElement i => Returns i this
  | _ => Base.intValue this
  end.

Definition doubleValue : method float := λ this,
  match this with
  | DoubleElement d => Returns d this
  | _ => Base.doubleValue this
  end.

Definition boolValue : method bool := λ this,
  match this with
  | BoolElement b => Returns b this
  | _ => Base.boolValue this
  end.

Definition stringValue : method string := λ this,
  match this with
  | StringElement s => Returns s this
  | _ => Base.stringValue this
  end.

Definition listValue : method vector := λ this,
  match this with
  | ListElement l => Returns l this
  | _ => Base.listValue this
  end.

Definition mapValue : method std_map := λ this,
  match this with
  | MapElement m => Returns m this
  | _ => Base.mapValue this
  end.

(** data.h:153-158 with 327, 339, 351, 363, 375, 392: [t = payload;
    return true;] *)
Definition getValue_int (t : Z) : method (bool * Z) := λ this,
  match this with
  | IntElement i => Returns (true, i) this
  | _ => Base.getValue t this
  end.

Definition getValue_double (t : float) : method (bool * float) := λ this,
  match this with
  | DoubleElement d => Returns (true, d) this
  | _ => Base.getValue t this
  end.

Definition getValue_bool (t : bool) : method (bool * bool) := λ this,
  match this with
  | BoolElement b => Returns (true, b) this
  | _ => Base.getValue t this
  end.

Definition getValue_string (t : string) : method (bool * string) := λ this,
  match this with
  | StringElement s => Returns (true, s) this
  | _ => Base.getValue t this
  end.

Definition getValue_vector (t : vector) : method (bool * vector) := λ this,
  match this with
  | ListElement l => Returns (true, l) this
  | _ => Base.getValue t this
  end.

Definition getValue_map (t : std_map) : method (bool * std_map) := λ this,
  match this with
  | MapElement m => Returns (true, m) this
  | _ => Base.getValue t this
  end.

(** data.h:168-173 with 328, 340, 352, 364, 376: [payload = v; return
    true;] *)
Definition setValue_int (v : Z) : method bool := λ this,
  match this with
  | IntElement _ => Returns true (IntElement v)
  | _ => Base.setValue v this
  end.

Definition setValue_double (v : float) : method bool := λ this,
  match this with
  | DoubleElement _ => Returns true (DoubleElement v)
  | _ => Base.setValue v this
  end.

Definition setValue_bool (v : bool) : method bool := λ this,
  match this with
  | BoolElement _ => Returns true (BoolElement v)
  | _ => Base.setValue v this
  end.

Definition setValue_string (v : string) : method bool := λ this,
  match this with
  | StringElement _ => Returns true (StringElement v)
  | _ => Base.setValue v this
  end.

Definition setValue_vector (v : vector) : method bool := λ this,
  match this with
  | ListElement _ => Returns true (ListElement v)
  | _ => Base.setValue v this
  end.

(** The slot [setValue(const std::map<std::string, ElementPtr>&)],
    data.h:173.  No subclass overrides it: the member of [MapElement] at
    data.h:393 takes [std::map<std::string, ElementPtr>&], without the
    [const], so it is a different function ([MapElement_setValue] below)
    and this slot keeps the base body for every dynamic type. *)
Definition setValue_map (v : std_map) : method bool := λ this,
  Base.setValue v this.

(** [bool MapElement::setValue(std::map<std::string, ElementPtr>& v)
    { m = v; return true; }], data.h:393: reachable only through an
    expression of static type [MapElement] and a non-const lvalue
    argument. *)
Definition MapElement_setValue (v : std_map) (m : std_map)
  : outcome Element bool :=
  Returns true (MapElement v).

(** The two overloaded families as one function each: an argument of one
    of the six parameter types selects the overload, as overload
    resolution does on a call through an [ElementPtr]. *)
Inductive value : Type :=
  | v_int (i : Z)
  | v_double (d : float)
  | v_bool (b : bool)
  | v_string (s : string)
  | v_vector (l : vector)
  | v_map (m : std_map).

Definition value_type (v : value) : types :=
  match v with
  | v_int _ => integer
  | v_double _ => real
  | v_bool _ => boolean
  | v_string _ => t_string
  | v_vector _ => t_list
  | v_map _ => t_map
  end.

(** The payload an element holds. *)
Definition payload (e : Element) : value :=
  match e with
  | IntElement i => v_int i
  | DoubleElement d => v_double d
  | BoolElement b => v_bool b
  | StringElement s => v_string s
  | ListElement l => v_vector l
  | MapElement m => v_map m
  end.

Definition returning {S A B} (f : A → B) (o : outcome S A) : outcome S B :=
  match o with
  | Returns a this => Returns (f a) this
  | Throws x this => Throws x this
  | Undefined => Undefined
  end.

(** [e->getValue(t)]: the flag returned and the variable [t] after the
    call. *)
Definition getValue (t : value) : method (bool * value) := λ this,
  match t with
  | v_int t => returning (prod_map id v_int) (getValue_int t this)
  | v_double t => returning (prod_map id v_double) (getValue_double t this)
  | v_bool t => returning (prod_map id v_bool) (getValue_bool t this)
  | v_string t => returning (prod_map id v_string) (getValue_string t this)
  | v_vector t => returning (prod_map id v_vector) (getValue_vector t this)
  | v_map t => returning (prod_map id v_map) (getValue_map t this)
  end.

(** [e->setValue(v)] *)
Definition setValue (v : value) : method bool :=
  match v with
  | v_int v => setValue_int v
  | v_double v => setValue_double v
  | v_bool v => setValue_bool v
  | v_string v => setValue_string v
  | v_vector v => setValue_vector v
  | v_map v => setValue_map v
  end.

(** The list members, data.h:188-202 with 377-383. *)

(** [ElementPtr get(int i) { return l.at(i); }] *)
Definition get_int (i : Z) : method ElementPtr := λ this,
  match this with
  | ListElement l =>
      match StdVector.at_ (Cxx.to_size_t i) l with
      | Some p => Returns p this
      | None => Throws (out_of_range "vector::_M_range_check") this
      end
  | _ => Base.get_int i this
  end.

(** [void set(size_t i, ElementPtr e) { if (i <= l.size()) {l[i] = e;}
    else { throw std::out_of_range("vector::_M_range_check"); } }] *)
Definition set_int (i : Z) (e : ElementPtr) : method unit := λ this,
  match this with
  | ListElement l =>
      if bool_decide (i ≤ StdVector.size l) then
        match StdVector.assign_at i e l with
        | Some l' => Returns () (ListElement l')
        | None => Undefined
        end
      else Throws (out_of_range "vector::_M_range_check") this
  | _ => Base.set_int i e this
  end.

(** [void add(ElementPtr e) { l.push_back(e); }] *)
Definition add (e : ElementPtr) : method unit := λ this,
  match this with
  | ListElement l => Returns () (ListElement (StdVector.push_back e l))
  | _ => Base.add e this
  end.

(** [void remove(int i) { l.erase(l.begin() + i); }] *)
Definition remove_int (i : Z) : method unit := λ this,
  match this with
  | ListElement l =>
      match StdVector.erase_at i l with
      | Some l' => Returns () (ListElement l')
      | None => Undefined
      end
  | _ => Base.remove_int i this
  end.

(** [size_t size() { return l.size(); }] *)
Definition size : method Z := λ this,
  match this with
  | ListElement l => Returns (StdVector.size l) this
  | _ => Base.size this
  end.

(** The map members, data.h:213-223 with 394-397. *)

(** [ElementPtr get(const std::string& s) { return m[s]; }] *)
Definition get_string (s : string) : method ElementPtr := λ this,
  match this with
  | MapElement m =>
      let '(p, m') := StdMap.index s m in Returns p (MapElement m')
  | _ => Base.get_string s this
  end.

(** [void set(const std::string& s, ElementPtr p) { m[s] = p; }] *)
Definition set_string (s : string) (p : ElementPtr) : method unit := λ this,
  match this with
  | MapElement m => Returns () (MapElement (StdMap.assign s p m))
  | _ => Base.set_string s p this
  end.

(** [void remove(const std::string& s) { m.erase(s); }] *)
Definition remove_string (s : string) : method unit := λ this,
  match this with
  | MapElement m => Returns () (MapElement (StdMap.erase s m))
  | _ => Base.remove_string s this
  end.

(** [bool contains(const std::string& s) { return m.find(s) != m.end(); }] *)
Definition contains (s : string) : method bool := λ this,
  match this with
  | MapElement m => Returns (StdMap.has s m) this
  | _ => Base.contains s this
  end.

(** *** Path lookup *)

(** The names of a [/]-separated identifier (data.h:224-231). *)
Fixpoint split_path (identifier : string) : list string :=
  match identifier with
  | EmptyString => [EmptyString]
  | String c rest =>
      if decide (c = "/"%char) then EmptyString :: split_path rest
      else match split_path rest with
           | name :: names => String c name :: names
           | [] => [String c EmptyString]
           end
  end.

(** Whether a name holds no [/]. *)
Fixpoint no_slash (name : string) : bool :=
  match name with
  | EmptyString => true
  | String c rest => if decide (c = "/"%char) then false else no_slash rest
  end.

(** Modelled from the spec: the bodies of [MapElement::find] (declared at
    data.h:411 and 417) are not part of the header.  The descent follows
    the spec's section 4.1: "each segment must name a map to continue
    descending except the final segment; if any intermediate segment is
    absent or is not a map, find returns an explicit not found (null
    handle or boolean false, per overload) rather than failing; if the
    path exists, returns the handle/true".  A name bound to the null
    handle counts as absent.  (The comment at data.h:407-409 announces a
    [TypeError] from the handle-returning overload for an element on the
    path that is not a map; the header holds no body that would decide,
    and the model keeps to the specification.) *)
Fixpoint descend (names : list string) (e : Element) : ElementPtr :=
  match e with
  | MapElement m =>
      match names with
      | [] => None
      | [name] => default None (m !! name)
      | name :: rest =>
          match m !! name with
          | Some (Some child) => descend rest child
          | _ => None
          end
      end
  | _ => None
  end.

(** [ElementPtr find(const std::string& id)], data.h:237 and 411. *)
Definition find (identifier : string) : method ElementPtr := λ this,
  match this with
  | MapElement _ => Returns (descend (split_path identifier) this) this
  | _ => Base.find identifier this
  end.

(** Modelled from the spec: [bool find(const std::string& id, ElementPtr&
    t)], data.h:242 and 417, whose body for a map is not part of the
    header.  By the spec's section 4.1 and the comment at data.h:413-416
    it stores the element in [t] and returns true when the element is
    found, and returns false when it is not, "either because it doesnt
    exist or one of the elements in the path is not a MapElement". *)
Definition find_into (identifier : string) (t : ElementPtr)
  : method (bool * ElementPtr) := λ this,
  match this with
  | MapElement _ =>
      match descend (split_path identifier) this with
      | Some found => Returns (true, Some found) this
      | None => Returns (false, t) this
      end
  | _ => Base.find_into identifier t this
  end.

(** Where the names of an identifier lead from an element, in the words
    of the claim: each name is a key of the map reached so far; the path
    exists when every name but the last names a map and the last names
    an element. *)
Inductive destination : Type :=
  | Leaf (p : Element)   (* the full path exists; [p] is at its end *)
  | NotFound.            (* a name is absent, or names a non-map element
                            in which the next name would be looked up *)

Inductive leads_to : list string → Element → destination → Prop :=
  | last_name_found (m : std_map) name p :
      m !! name = Some (Some p) →
      leads_to [name] (MapElement m) (Leaf p)
  | last_name_absent (m : std_map) name :
      default None (m !! name) = None →
      leads_to [name] (MapElement m) NotFound
  | name_found (m : std_map) name rest child d :
      rest ≠ [] → m !! name = Some (Some child) →
      leads_to rest child d →
      leads_to (name :: rest) (MapElement m) d
  | name_absent (m : std_map) name rest :
      rest ≠ [] → default None (m !! name) = None →
      leads_to (name :: rest) (MapElement m) NotFound
  | not_a_map names e :
      getType e ≠ t_map →
      leads_to names e NotFound.

(** What the two overloads of [find] do for a destination; [t] is the
    handle passed to the boolean overload. *)
Definition find_outcomes (identifier : string) (t : ElementPtr)
    (this : Element) (d : destination) : Prop :=
  match d with
  | Leaf p =>
      find identifier this = Returns (Some p) this
      ∧ find_into identifier t this = Returns (true, Some p) this
  | NotFound =>
      find identifier this = Returns None this
      ∧ find_into identifier t this = Returns (false, t) this
  end.

(** The spec's example: [a] holds a map in which [b] is a string. *)
Definition string_at_a_b : Element :=
  MapElement {["a" := Some (MapElement {["b" := Some (StringElement "s")]})]}.

(** Nested maps at [a] and [a/b], and an integer at [a/b/c]. *)
Definition int_at_a_b_c : Element :=
  MapElement
    {["a" := Some (MapElement
        {["b" := Some (MapElement {["c" := Some (IntElement 3)]})]})]}.

(** *** Every call of the interface *)

(** The six type-specific getters, data.h:136-141. *)
Inductive accessor : Type :=
  | a_intValue | a_doubleValue | a_boolValue
  | a_stringValue | a_listValue | a_mapValue.

Global Instance accessor_eq_dec : EqDecision accessor.
Proof. solve_decision. Defined.

(** The getter written for a type tag. *)
Definition accessor_of (t : types) : accessor :=
  match t with
  | integer => a_intValue
  | real => a_doubleValue
  | boolean => a_boolValue
  | t_string => a_stringValue
  | t_list => a_listValue
  | t_map => a_mapValue
  end.

(** A call whose result is dropped. *)
Definition discard {A} (f : method A) : method unit := λ this,
  match f this with
  | Returns _ this' => Returns () this'
  | Throws x this' => Throws x this'
  | Undefined => Undefined
  end.

Definition call_accessor (a : accessor) : method unit :=
  match a with
  | a_intValue => discard intValue
  | a_doubleValue => discard doubleValue
  | a_boolValue => discard boolValue
  | a_stringValue => discard stringValue
  | a_listValue => discard listValue
  | a_mapValue => discard mapValue
  end.

(** A call, with its arguments, of a virtual member function of [Element]
    that the header defines for every subclass. *)
Inductive call : Type :=
  | c_accessor (a : accessor)
  | c_getValue_int (t : Z)
  | c_getValue_double (t : float)
  | c_getValue_bool (t : bool)
  | c_getValue_string (t : string)
  | c_getValue_vector (t : vector)
  | c_getValue_map (t : std_map)
  | c_setValue_int (v : Z)
  | c_setValue_double (v : float)
  | c_setValue_bool (v : bool)
  | c_setValue_string (v : string)
  | c_setValue_vector (v : vector)
  | c_setValue_map (v : std_map)
  | c_get_int (i : Z)
  | c_set_int (i : Z) (e : ElementPtr)
  | c_add (e : ElementPtr)
  | c_remove_int (i : Z)
  | c_size
  | c_get_string (s : string)
  | c_set_string (s : string) (p : ElementPtr)
  | c_remove_string (s : string)
  | c_contains (s : string).

Definition run (c : call) : method unit :=
  match c with
  | c_accessor a => call_accessor a
  | c_getValue_int t => discard (getValue_int t)
  | c_getValue_double t => discard (getValue_double t)
  | c_getValue_bool t => discard (getValue_bool t)
  | c_getValue_string t => discard (getValue_string t)
  | c_getValue_vector t => discard (getValue_vector t)
  | c_getValue_map t => discard (getValue_map t)
  | c_setValue_int v => discard (setValue_int v)
  | c_setValue_double v => discard (setValue_double v)
  | c_setValue_bool v => discard (setValue_bool v)
  | c_setValue_string v => discard (setValue_string v)
  | c_setValue_vector v => discard (setValue_vector v)
  | c_setValue_map v => discard (setValue_map v)
  | c_get_int i => discard (get_int i)
  | c_set_int i e => set_int i e
  | c_add e => add e
  | c_remove_int i => remove_int i
  | c_size => discard size
  | c_get_string s => discard (get_string s)
  | c_set_string s p => set_string s p
  | c_remove_string s => remove_string s
  | c_contains s => discard (contains s)
  end.

(** A sequence of calls on one element; it stops at the first call that
    throws or is undefined. *)
Fixpoint run_all (cs : list call) : method unit := λ this,
  match cs with
  | [] => Returns () this
  | c :: cs' =>
      match run c this with
      | Returns _ this' => run_all cs' this'
      | o => o
      end
  end.

(** *** The textual form *)

Fixpoint join_with (sep : string) (parts : list string) : string :=
  match parts with
  | [] => EmptyString
  | [part] => part
  | part :: rest => part +:+ sep +:+ join_with sep rest
  end.





Section Str.

(** What the model takes as given: the stream's formatting of a
    [double], the text written for a null handle, and the order in which
    the pairs of a map are written.  The order is a function of the pairs
    alone: the element holds them in [std::map<std::string, ElementPtr> m]
    (data.h:387), which records nothing else. *)
Variable double_str : float → string.
Variable null_str : string.
Variable order : gmap string string → list (string * string).



End Str.


(** The map element left by [set(k1, p1); set(k2, p2); ...] on an empty
    [MapElement]: the entries in the order of their insertion. *)
Definition inserted (entries : list (string * ElementPtr)) : outcome Element unit :=
  run_all ((λ kp, c_set_string kp.1 kp.2) <$> entries) (MapElement ∅).

(** Two insertions, the greater key first. *)
Definition b_then_a : list (string * ElementPtr) :=
  [("b", Some (IntElement 1)); ("a", Some (IntElement 2))].



(** ** The DNS service listener (dns_service.h) *)

Module DNSService.

(** [enum ServerFlag], dns_service.h:61-76 *)
Definition SERVER_DEFAULT : Z := 0.
Definition SERVER_SYNC_OK : Z := 1.

(** [static const unsigned int SERVER_DEFINED_FLAGS = 1;],
    dns_service.h:127 *)
Definition SERVER_DEFINED_FLAGS : Z := 1.

(** [isc::InvalidParameter] and [isc::asiolink::IOError],
    dns_service.h:180-183 *)
Inductive error : Type := InvalidParameter | IOError.

(** A listener the service has registered. *)
Record server : Type := mk_server {
  server_fd : Z;
  server_af : Z;
  server_udp : bool;
  server_sync_ok : bool
}.

Inductive result : Type :=
  | Registered (servers : list server)
  | Failed (e : error) (servers : list server).

Section Service.

(** The platform's address families and the descriptors the event loop
    can adopt. *)
Variables AF_INET AF_INET6 : Z.
Variable usable : Z → bool.

(** Modelled from the spec: [DNSService::addServerUDPFromFD] is declared
    at dns_service.h:184-185 and defined outside the header.  By its
    comment (dns_service.h:175-183) and the spec's section 4.2 it throws
    [isc::InvalidParameter] when [options] includes a value outside
    [SERVER_DEFINED_FLAGS] (the constant "used internally for
    compatibility check", dns_service.h:124-127) or when [af] is neither
    [AF_INET] nor [AF_INET6], throws [IOError] when the descriptor cannot
    be used, and otherwise registers one listener. *)
Definition addServerUDPFromFD (fd af options : Z) (servers : list server)
  : result :=
  if negb (Z.land (Cxx.unsigned_not SERVER_DEFINED_FLAGS)
                  (Cxx.to_unsigned options) =? 0)
  then Failed InvalidParameter servers
  else if negb ((af =? AF_INET) || (af =? AF_INET6))
  then Failed InvalidParameter servers
  else if negb (usable fd)
  then Failed IOError servers
  else Registered
         (servers ++ [mk_server fd af true
                        (negb (Z.land options SERVER_SYNC_OK =? 0))]).

End Service.

End DNSService.

(** ** Calls in sequence *)

(** [a = f(); g(a)] on one element: the second call runs on the element
    as the first left it; a throw or undefined behaviour of the first
    ends the sequence. *)
Definition and_then {A B} (f : method A) (g : A → method B) : method B :=
  λ this,
  match f this with
  | Returns a this' => g a this'
  | Throws x this' => Throws x this'
  | Undefined => Undefined
  end.

(** The value a call returns, when it returns. *)
Definition value_of {S A} (o : outcome S A) : option A :=
  match o with Returns a _ => Some a | _ => None end.

(** An [int] that designates an element of the vector. *)
Definition indexes (l : vector) (i : Z) : Prop :=
  0 ≤ i < StdVector.size l ∧ i ≤ Cxx.int_max.

(** The payload a type-specific getter returns, as a [value]. *)
Definition accessor_value (a : accessor) : method value := λ this,
  match a with
  | a_intValue => returning v_int (intValue this)
  | a_doubleValue => returning v_double (doubleValue this)
  | a_boolValue => returning v_bool (boolValue this)
  | a_stringValue => returning v_string (stringValue this)
  | a_listValue => returning v_vector (listValue this)
  | a_mapValue => returning v_map (mapValue this)
  end.

(** * Properties *)

(** ** Outcomes of single calls *)

Lemma discard_receiver {A} (f : method A) (e : Element) :
  receiver_after (discard f e) = receiver_after (f e).
Proof. unfold discard. by destruct (f e). Qed.

Ltac same_receiver := simpl; intros [= <-]; reflexivity.

(** No call changes the dynamic type of its receiver. *)
Lemma run_getType (c : call) (e e' : Element) :
  receiver_after (run c e) = Some e' → getType e' = getType e.
Proof.
  destruct c as [a| | | | | | | | | | | | |i|i p|p|i| |s|s p|s|s];
    simpl; rewrite ?discard_receiver;
    try (destruct e; same_receiver).
  - destruct a; simpl; rewrite discard_receiver; destruct e; same_receiver.
  - destruct e as [| | | |l|]; try same_receiver.
    simpl. destruct (StdVector.at_ _ l); same_receiver.
  - destruct e as [| | | |l|]; try same_receiver.
    simpl. case_bool_decide; [|same_receiver].
    destruct (StdVector.assign_at i p l); [same_receiver|discriminate].
  - destruct e as [| | | |l|]; try same_receiver.
    simpl. destruct (StdVector.erase_at i l); [same_receiver|discriminate].
  - destruct e as [| | | | |m]; try same_receiver.
    simpl. destruct (StdMap.index s m); same_receiver.
Qed.

Lemma run_all_getType (cs : list call) (e e' : Element) :
  receiver_after (run_all cs e) = Some e' → getType e' = getType e.
Proof.
  revert e. induction cs as [|c cs IH]; intros e; simpl.
  - congruence.
  - destruct (run c e) as [[] e1|x e1|] eqn:Hc; simpl.
    + intros H. rewrite (IH _ H). apply (run_getType c). by rewrite Hc.
    + intros [= <-]. apply (run_getType c). by rewrite Hc.
    + discriminate.
Qed.

(** C1. The tag [getType] returns is the one the constructor set: the
    getter written for that tag succeeds, each of the other five throws
    [TypeError], no getter changes the element, and after any sequence of
    calls of the interface the element still has the tag it was
    constructed with. *)
Theorem getType_fixed_and_one_accessor (e : Element) :
  (∀ a : accessor,
     (if decide (a = accessor_of (getType e))
      then succeeds (call_accessor a e) = true
      else throws_TypeError (call_accessor a e) = true)
     ∧ receiver_after (call_accessor a e) = Some e)
  ∧ (∀ cs : list call,
       match receiver_after (run_all cs e) with
       | Some e' => getType e' = getType e
       | None => True
       end).
Proof.
  split.
  - intros a. destruct e, a; simpl; auto.
  - intros cs. destruct (receiver_after (run_all cs e)) as [e'|] eqn:H; [|done].
    by apply run_all_getType in H.
Qed.

(** ** The exception-safe getters and setters *)

(** Every [getValue] overload: true and a copy of the payload when the
    argument has the element's type, false and the argument as it was
    otherwise; the element is never changed. *)
Lemma getValue_by_type (t : value) (e : Element) :
  getValue t e =
    if decide (value_type t = getType e)
    then Returns (true, payload e) e
    else Returns (false, t) e.
Proof. destruct t, e; reflexivity. Qed.

(** Every [setValue] overload on an element of another type: false, and
    the element as it was. *)
Lemma setValue_other_type (v : value) (e : Element) :
  value_type v ≠ getType e → setValue v e = Returns false e.
Proof. destruct v, e; simpl; intros H; done. Qed.

(** The five overridden [setValue] overloads on an element of their type:
    true, and the payload replaced. *)
Lemma setValue_same_type (v : value) (e : Element) :
  value_type v = getType e → getType e ≠ t_map →
  ∃ e', setValue v e = Returns true e' ∧ payload e' = v.
Proof. destruct v, e; simpl; intros H1 H2; try done; eauto. Qed.

(** A string element takes a new string. *)
Lemma setValue_same_type_witness :
  ∃ e', setValue (v_string "new") (StringElement "old") = Returns true e'
        ∧ payload e' = v_string "new".
Proof.
  apply (setValue_same_type (v_string "new") (StringElement "old"));
    [reflexivity | discriminate].
Defined.

(** The slot for a map argument runs the base body on every element. *)
Lemma setValue_map_base_body (v : std_map) (e : Element) :
  setValue (v_map v) e = Returns false e.
Proof. reflexivity. Qed.

(** C3, at a map element. [setValue] with a map argument on a
    [MapElement] returns false and leaves the payload as it was, although
    the argument has the element's type: the member at data.h:393 lacks
    the [const] of the slot at data.h:173 and overrides nothing. *)
Theorem setValue_map_on_MapElement :
  value_type (v_map {["a" := Some (IntElement 1)]}) = getType (MapElement ∅)
  ∧ setValue (v_map {["a" := Some (IntElement 1)]}) (MapElement ∅)
    = Returns false (MapElement ∅).
Proof. split; reflexivity. Qed.

(** ** Lists: indexed access *)

(** [set] beyond the size throws [std::out_of_range] and leaves the list
    as it was. *)
Lemma set_int_beyond_size (l : vector) (i : Z) (e : ElementPtr) :
  StdVector.size l < i →
  set_int i e (ListElement l)
  = Throws (out_of_range "vector::_M_range_check") (ListElement l).
Proof. intros H. simpl. rewrite bool_decide_eq_false_2; [done|lia]. Qed.

(** Index 3 on a list of two elements. *)
Lemma set_int_beyond_size_witness :
  set_int 3 None (ListElement [Some (IntElement 1); Some (IntElement 2)])
  = Throws (out_of_range "vector::_M_range_check")
      (ListElement [Some (IntElement 1); Some (IntElement 2)]).
Proof.
  apply (set_int_beyond_size [Some (IntElement 1); Some (IntElement 2)] 3 None).
  unfold StdVector.size. simpl. lia.
Defined.

(** [set] within the list replaces the handle at the index. *)
Lemma set_int_in_range (l : vector) (i : Z) (e : ElementPtr) :
  0 ≤ i < StdVector.size l →
  set_int i e (ListElement l) = Returns () (ListElement (<[Z.to_nat i := e]> l)).
Proof.
  intros H. simpl. rewrite bool_decide_eq_true_2 by lia.
  unfold StdVector.assign_at. by rewrite bool_decide_eq_true_2.
Qed.

(** [set] at the size passes the guard [i <= l.size()] and writes
    [l[i]], one past the last element. *)
Lemma set_int_at_size (l : vector) (e : ElementPtr) :
  set_int (StdVector.size l) e (ListElement l) = Undefined.
Proof.
  simpl. rewrite bool_decide_eq_true_2 by lia.
  unfold StdVector.assign_at. rewrite bool_decide_eq_false_2; [done|lia].
Qed.

(** C4, at the index equal to the length. On a list of two elements
    [set(2, e)] throws nothing: the guard lets the index through and the
    unchecked write is outside the vector. *)
Theorem set_int_2_of_2 :
  set_int 2 (Some (IntElement 9))
    (ListElement [Some (IntElement 1); Some (IntElement 2)])
  = Undefined
  ∧ throws_out_of_range
      (set_int 2 (Some (IntElement 9))
         (ListElement [Some (IntElement 1); Some (IntElement 2)]))
    = false.
Proof. split; reflexivity. Qed.

(** [remove] has no guard: outside the list the iterator handed to
    [erase] points at no element. *)
Lemma remove_int_out_of_range (l : vector) (i : Z) :
  i < 0 ∨ StdVector.size l ≤ i → remove_int i (ListElement l) = Undefined.
Proof.
  intros H. simpl. unfold StdVector.erase_at.
  rewrite bool_decide_eq_false_2; [done|lia].
Qed.

Lemma remove_int_in_range (l : vector) (i : Z) :
  0 ≤ i < StdVector.size l →
  remove_int i (ListElement l) = Returns () (ListElement (delete (Z.to_nat i) l)).
Proof.
  intros H. simpl. unfold StdVector.erase_at. by rewrite bool_decide_eq_true_2.
Qed.

(** [get] outside the list throws [std::out_of_range] and leaves the list
    as it was; a negative [int] index is converted to a [size_t] beyond
    any size a vector can have. *)
Lemma get_int_out_of_range (l : vector) (i : Z) :
  Cxx.is_int i → StdVector.size l ≤ StdVector.max_size →
  i < 0 ∨ StdVector.size l ≤ i →
  get_int i (ListElement l)
  = Throws (out_of_range "vector::_M_range_check") (ListElement l).
Proof.
  unfold Cxx.is_int, Cxx.int_min, Cxx.int_max, StdVector.max_size.
  change (2 ^ 31) with 2147483648.
  change ((2 ^ 63 - 1) `div` 16) with 576460752303423487.
  intros Hi Hl H. simpl. unfold StdVector.at_, Cxx.to_size_t.
  change (2 ^ 64) with 18446744073709551616.
  rewrite bool_decide_eq_false_2; [done|].
  destruct (decide (i < 0)).
  - replace (i `mod` 18446744073709551616) with (i + 18446744073709551616);
      [lia|].
    apply Z.mod_unique with (-1); lia.
  - rewrite Z.mod_small; lia.
Qed.

(** Index -1 on a list of one element. *)
Lemma get_int_out_of_range_witness :
  get_int (-1) (ListElement [Some (IntElement 7)])
  = Throws (out_of_range "vector::_M_range_check")
      (ListElement [Some (IntElement 7)]).
Proof.
  apply (get_int_out_of_range [Some (IntElement 7)] (-1)).
  - unfold Cxx.is_int, Cxx.int_min, Cxx.int_max. simpl. lia.
  - unfold StdVector.size, StdVector.max_size.
    change ((2 ^ 63 - 1) `div` 16) with 576460752303423487. simpl. lia.
  - lia.
Defined.

(** C5, at an index past the end. On a list of one element [remove(3)]
    is not a no-op: [erase] gets [begin() + 3], which points at no
    element.  The same holds for a negative index. *)
Theorem remove_int_3_of_1 :
  remove_int 3 (ListElement [Some (IntElement 7)]) = Undefined
  ∧ remove_int (-1) (ListElement [Some (IntElement 7)]) = Undefined.
Proof. split; reflexivity. Qed.

(** ** Maps: lookup by key *)

(** C7. [get] of a key the map does not hold returns the null handle and
    leaves the map with that key bound to it: [contains] answered false
    before the call and answers true after it. *)
Theorem get_string_absent_inserts_null (m : std_map) (k : string) :
  m !! k = None →
  contains k (MapElement m) = Returns false (MapElement m)
  ∧ get_string k (MapElement m) = Returns None (MapElement (<[k := None]> m))
  ∧ contains k (MapElement (<[k := None]> m))
    = Returns true (MapElement (<[k := None]> m)).
Proof.
  intros Hk. simpl. unfold StdMap.has, StdMap.index.
  rewrite Hk, lookup_insert_eq.
  rewrite bool_decide_eq_false_2 by (by intros [? ?]).
  rewrite bool_decide_eq_true_2 by eauto.
  done.
Qed.

(** A map that holds [a] asked for [b]. *)
Lemma get_string_absent_inserts_null_witness :
  ({["a" := Some (IntElement 1)]} : std_map) !! "b" = None
  ∧ get_string "b" (MapElement {["a" := Some (IntElement 1)]})
    = Returns None
        (MapElement (<["b" := None]> {["a" := Some (IntElement 1)]})).
Proof.
  split; [reflexivity|].
  apply (get_string_absent_inserts_null {["a" := Some (IntElement 1)]} "b").
  reflexivity.
Defined.

(** [get] of a key the map holds returns its handle and changes nothing. *)
Lemma get_string_present (m : std_map) (k : string) (p : ElementPtr) :
  m !! k = Some p → get_string k (MapElement m) = Returns p (MapElement m).
Proof. intros Hk. simpl. unfold StdMap.index. by rewrite Hk. Qed.

(** ** Path lookup on an element that is not a map *)

(** C10. On an element that is not a map the handle-returning [find]
    throws [TypeError], and the boolean [find] returns false and leaves
    the handle it was given as it was; neither changes the element. *)
Theorem find_on_non_map (e : Element) (identifier : string) (t : ElementPtr) :
  getType e ≠ t_map →
  find identifier e
  = Throws (TypeError "find(string) called on a non-map Element") e
  ∧ find_into identifier t e = Returns (false, t) e.
Proof. destruct e; simpl; intros H; done. Qed.

(** Both overloads on an empty list. *)
Lemma find_on_non_map_witness :
  find "a/b" (ListElement [])
  = Throws (TypeError "find(string) called on a non-map Element") (ListElement [])
  ∧ find_into "a/b" (Some (IntElement 1)) (ListElement [])
    = Returns (false, Some (IntElement 1)) (ListElement []).
Proof. apply (find_on_non_map (ListElement []) "a/b"). discriminate. Defined.

(** ** Path lookup on a map *)

Lemma split_path_nonempty (identifier : string) : split_path identifier ≠ [].
Proof.
  destruct identifier as [|c rest]; simpl; [done|].
  case_decide; [done|]. by destruct (split_path rest).
Qed.

(** A name without [/] is one name. *)
Lemma split_path_name (name : string) :
  no_slash name = true → split_path name = [name].
Proof.
  induction name as [|c rest IH]; simpl; [done|].
  case_decide; [done|]. intros Hn. by rewrite IH.
Qed.

(** The first [/] ends the first name. *)
Lemma split_path_slash (name rest : string) :
  no_slash name = true →
  split_path (name +:+ "/" +:+ rest) = name :: split_path rest.
Proof.
  induction name as [|c name IH]; simpl; [done|].
  case_decide; [done|]. intros Hn. by rewrite IH.
Qed.

(** [split_path] gives back the names that were joined by [/]. *)
Lemma split_path_join (names : list string) :
  names ≠ [] → Forall (λ name, no_slash name = true) names →
  split_path (join_with "/" names) = names.
Proof.
  induction names as [|name rest IH]; intros Hne Hall; [done|].
  apply Forall_cons_1 in Hall as [Hname Hrest].
  destruct rest as [|name' rest].
  - by apply split_path_name.
  - change (join_with "/" (name :: name' :: rest))
      with (name +:+ "/" +:+ join_with "/" (name' :: rest)).
    rewrite split_path_slash by done. f_equal. by apply IH.
Qed.

(** Every identifier is its names joined by [/], and no name holds a
    [/]. *)
Lemma join_split_path (identifier : string) :
  join_with "/" (split_path identifier) = identifier
  ∧ Forall (λ name, no_slash name = true) (split_path identifier).
Proof.
  induction identifier as [|c rest [IHj IHs]]; simpl; [by repeat constructor|].
  pose proof (split_path_nonempty rest) as Hne.
  case_decide as Hc.
  - subst c. split; [|by constructor].
    destruct (split_path rest) as [|name names]; [done|].
    change (join_with "/" (EmptyString :: name :: names))
      with (EmptyString +:+ "/" +:+ join_with "/" (name :: names)).
    by rewrite IHj.
  - destruct (split_path rest) as [|name names]; [done|].
    apply Forall_cons_1 in IHs as [Hname Hnames]. split.
    + rewrite <-IHj. by destruct names.
    + constructor; [|done]. simpl. by rewrite decide_False.
Qed.

Lemma descend_non_map (names : list string) (e : Element) :
  getType e ≠ t_map → descend names e = None.
Proof. destruct names, e; simpl; done. Qed.

(** [descend] goes where the names lead. *)
Lemma descend_leads_to (names : list string) (e : Element) (d : destination) :
  leads_to names e d →
  descend names e = match d with Leaf p => Some p | NotFound => None end.
Proof.
  induction 1 as [m name p Hp|m name Hn|m name rest child d Hr Hc _ IH
                 |m name rest Hr Hn|names e He]; simpl.
  - by rewrite Hp.
  - by rewrite Hn.
  - destruct rest as [|name' rest]; [done|]. by rewrite Hc.
  - destruct rest as [|name' rest]; [done|].
    destruct (m !! name) as [[child|]|]; simpl in Hn; done.
  - by apply descend_non_map.
Qed.

(** Every non-empty list of names leads somewhere. *)
Lemma leads_to_total (names : list string) (e : Element) :
  names ≠ [] → ∃ d, leads_to names e d.
Proof.
  revert e. induction names as [|name rest IH]; intros e Hne; [done|].
  destruct e as [i|x|b|s|l|m];
    try (exists NotFound; by constructor).
  destruct rest as [|name' rest].
  - destruct (m !! name) as [[p|]|] eqn:Hm.
    + exists (Leaf p). by constructor.
    + exists NotFound. constructor. by rewrite Hm.
    + exists NotFound. constructor. by rewrite Hm.
  - destruct (m !! name) as [[child|]|] eqn:Hm.
    + destruct (IH child) as [d Hd]; [done|].
      exists d. by apply name_found with child.
    + exists NotFound. apply name_absent; [done|]. by rewrite Hm.
    + exists NotFound. apply name_absent; [done|]. by rewrite Hm.
Qed.

(** C6. On a map element, [find] of the names joined by [/] looks each
    name up as a key, descending through the nested maps.  Where the
    names lead to an element, [find] returns its handle and the boolean
    [find] returns true and stores it.  Where a name is absent, or names
    an element that is not a map while names remain, [find] returns the
    null handle and the boolean [find] returns false and leaves the
    handle it was given as it was; nothing is thrown.  No case changes
    the element. *)
Theorem find_follows_path (names : list string) (t : ElementPtr)
    (m : std_map) (d : destination) :
  names ≠ [] → Forall (λ name, no_slash name = true) names →
  leads_to names (MapElement m) d →
  find_outcomes (join_with "/" names) t (MapElement m) d.
Proof.
  intros Hne Hall H. apply descend_leads_to in H.
  unfold find_outcomes, find, find_into.
  rewrite split_path_join by done. rewrite H. by destruct d.
Qed.

(** The spec's example: [find("a/b/c")] where [a/b] is a string. *)
Lemma find_follows_path_witness :
  find "a/b/c" string_at_a_b = Returns None string_at_a_b
  ∧ find_into "a/b/c" (Some (IntElement 0)) string_at_a_b
    = Returns (false, Some (IntElement 0)) string_at_a_b.
Proof.
  apply (find_follows_path ["a"; "b"; "c"] (Some (IntElement 0))
           {["a" := Some (MapElement {["b" := Some (StringElement "s")]})]}
           NotFound).
  - discriminate.
  - repeat constructor.
  - apply name_found with (MapElement {["b" := Some (StringElement "s")]});
      [discriminate | reflexivity |].
    apply name_found with (StringElement "s");
      [discriminate | reflexivity |].
    apply not_a_map. discriminate.
Defined.

(** Nested maps at [a] and [a/b]: [find("a/b/c")] returns the value at
    [c]. *)
Lemma find_nested_leaf :
  find "a/b/c" int_at_a_b_c = Returns (Some (IntElement 3)) int_at_a_b_c
  ∧ find_into "a/b/c" None int_at_a_b_c
    = Returns (true, Some (IntElement 3)) int_at_a_b_c.
Proof. split; reflexivity. Qed.

(** A sequence of insertions leaves the map that holds them all. *)
Lemma run_all_set_string (entries : list (string * ElementPtr)) (m : std_map) :
  run_all ((λ kp, c_set_string kp.1 kp.2) <$> entries) (MapElement m)
  = Returns () (MapElement (foldl (λ m kp, <[kp.1 := kp.2]> m) m entries)).
Proof.
  revert m. induction entries as [|[k p] entries IH]; intros m; [done|].
  simpl. apply IH.
Qed.

Lemma foldl_insert_list_to_map (entries : list (string * ElementPtr)) :
  foldl (λ (m : std_map) kp, <[kp.1 := kp.2]> m) ∅ entries
  = list_to_map (reverse entries).
Proof.
  induction entries as [|kp entries IH] using rev_ind; [done|].
  rewrite foldl_snoc, reverse_snoc, IH. done.
Qed.

(** The order of insertion of distinct keys does not show in the element,
    hence not in its textual form. *)
Lemma inserted_any_order (h1 h2 : list (string * ElementPtr)) :
  NoDup h1.*1 → h1 ≡ₚ h2 → inserted h1 = inserted h2.
Proof.
  intros Hnd Hp. unfold inserted. rewrite !run_all_set_string.
  rewrite !foldl_insert_list_to_map. do 2 f_equal.
  apply list_to_map_proper.
  - by rewrite fmap_reverse, reverse_Permutation.
  - by rewrite !reverse_Permutation.
Qed.

(** [b] then [a], and [a] then [b]. *)
Lemma inserted_any_order_witness :
  inserted b_then_a
  = inserted [("a", Some (IntElement 2)); ("b", Some (IntElement 1))].
Proof.
  apply (inserted_any_order b_then_a
           [("a", Some (IntElement 2)); ("b", Some (IntElement 1))]).
  - unfold b_then_a. simpl. apply NoDup_cons_2; [|apply NoDup_singleton].
    rewrite list_elem_of_singleton. discriminate.
  - unfold b_then_a. apply perm_swap.
Defined.

(** ** The textual form of a map *)






(** ** The flags of [addServerUDPFromFD] *)

Lemma undefined_flag_detected (options n : Z) :
  0 ≤ n < 32 →
  Z.testbit DNSService.SERVER_DEFINED_FLAGS n = false →
  Z.testbit options n = true →
  Z.land (Cxx.unsigned_not DNSService.SERVER_DEFINED_FLAGS)
         (Cxx.to_unsigned options) ≠ 0.
Proof.
  intros Hn Hdef Hopt Hzero.
  assert (Z.testbit (Z.land (Cxx.unsigned_not DNSService.SERVER_DEFINED_FLAGS)
                            (Cxx.to_unsigned options)) n = true) as Hbit.
  { unfold Cxx.unsigned_not, Cxx.to_unsigned.
    rewrite Z.land_spec, Z.lxor_spec, Hdef.
    change (2 ^ 32 - 1) with (Z.ones 32).
    rewrite Z.ones_spec_low by lia.
    rewrite Z.mod_pow2_bits_low by lia.
    by rewrite Hopt. }
  rewrite Hzero, Z.bits_0 in Hbit. discriminate.
Qed.

(** C9. When [options] has a bit set that is not a defined flag,
    [addServerUDPFromFD] fails with [InvalidParameter], whatever the
    descriptor and the address family, and the registered listeners are
    as they were. *)
Theorem addServerUDPFromFD_undefined_flag (AF_INET AF_INET6 : Z)
    (usable : Z → bool) (fd af options : Z)
    (servers : list DNSService.server) (n : Z) :
  0 ≤ n < 32 →
  Z.testbit DNSService.SERVER_DEFINED_FLAGS n = false →
  Z.testbit options n = true →
  DNSService.addServerUDPFromFD AF_INET AF_INET6 usable fd af options servers
  = DNSService.Failed DNSService.InvalidParameter servers.
Proof.
  intros Hn Hdef Hopt. unfold DNSService.addServerUDPFromFD.
  pose proof (undefined_flag_detected options n Hn Hdef Hopt) as Hne.
  apply Z.eqb_neq in Hne. by rewrite Hne.
Qed.

(** The option value 2 has bit 1 set, which no flag defines. *)
Lemma addServerUDPFromFD_undefined_flag_witness :
  DNSService.addServerUDPFromFD 2 10 (λ _, true) 5 2 2 []
  = DNSService.Failed DNSService.InvalidParameter [].
Proof.
  apply (addServerUDPFromFD_undefined_flag 2 10 (λ _, true) 5 2 2 [] 1);
    [lia | reflexivity | reflexivity].
Defined.

(** With defined flags, a supported family and a usable descriptor the
    call registers exactly one listener. *)
Lemma addServerUDPFromFD_defined_flags (AF_INET AF_INET6 : Z)
    (usable : Z → bool) (fd af options : Z)
    (servers : list DNSService.server) :
  options = DNSService.SERVER_DEFAULT ∨ options = DNSService.SERVER_SYNC_OK →
  af = AF_INET ∨ af = AF_INET6 → usable fd = true →
  ∃ s, DNSService.addServerUDPFromFD AF_INET AF_INET6 usable fd af options servers
       = DNSService.Registered (servers ++ [s]).
Proof.
  intros Hopt Haf Hfd. unfold DNSService.addServerUDPFromFD.
  assert ((Z.land (Cxx.unsigned_not DNSService.SERVER_DEFINED_FLAGS)
                  (Cxx.to_unsigned options) =? 0) = true) as ->.
  { destruct Hopt as [-> | ->]; reflexivity. }
  assert (((af =? AF_INET) || (af =? AF_INET6)) = true) as ->.
  { destruct Haf as [-> | ->]; rewrite Z.eqb_refl; [done|apply orb_true_r]. }
  rewrite Hfd. simpl. eauto.
Qed.

(** ** Lists: how the members compose *)

Lemma to_size_t_int (i : Z) : 0 ≤ i ≤ Cxx.int_max → Cxx.to_size_t i = i.
Proof.
  unfold Cxx.int_max, Cxx.to_size_t.
  change (2 ^ 31) with 2147483648. change (2 ^ 64) with 18446744073709551616.
  intros H. apply Z.mod_small. lia.
Qed.

(** [get] with a non-negative [int] reads the vector at that position, and
    throws where the vector has none. *)
Lemma get_int_lookup (l : vector) (i : Z) :
  0 ≤ i ≤ Cxx.int_max →
  get_int i (ListElement l) =
    match l !! Z.to_nat i with
    | Some p => Returns p (ListElement l)
    | None => Throws (out_of_range "vector::_M_range_check") (ListElement l)
    end.
Proof.
  intros Hi. simpl. rewrite to_size_t_int by done.
  unfold StdVector.at_, StdVector.size. case_bool_decide as Hr.
  - by destruct (l !! Z.to_nat i).
  - rewrite lookup_ge_None_2; [done|lia].
Qed.

Lemma value_of_get_int (l : vector) (i : Z) :
  0 ≤ i ≤ Cxx.int_max →
  value_of (get_int i (ListElement l)) = l !! Z.to_nat i.
Proof. intros Hi. rewrite get_int_lookup by done. by destruct (l !! _). Qed.

Lemma size_app_one (l : vector) (e : ElementPtr) :
  StdVector.size (l ++ [e]) = StdVector.size l + 1.
Proof. unfold StdVector.size. rewrite length_app. simpl. lia. Qed.

(** [add] appends: the size grows by one, the handle added is at the
    last index, and [get] at every index of the list as it was returns
    what it returned before. *)
Theorem add_appends (l : vector) (e : ElementPtr) :
  StdVector.size l ≤ Cxx.int_max →
  and_then (add e) (λ _, size) (ListElement l)
  = Returns (StdVector.size l + 1) (ListElement (l ++ [e]))
  ∧ and_then (add e) (λ _, get_int (StdVector.size l)) (ListElement l)
    = Returns e (ListElement (l ++ [e]))
  ∧ ∀ i, indexes l i →
         value_of (and_then (add e) (λ _, get_int i) (ListElement l))
         = value_of (get_int i (ListElement l)).
Proof.
  intros Hl. unfold and_then, add, StdVector.push_back.
  split; [|split].
  - simpl. by rewrite size_app_one.
  - rewrite get_int_lookup by (unfold StdVector.size in *; lia).
    unfold StdVector.size. rewrite Nat2Z.id.
    by rewrite list_lookup_middle.
  - intros i [Hi Hmax]. rewrite !value_of_get_int by lia.
    apply lookup_app_l. unfold StdVector.size in Hi. lia.
Qed.

(** A list of two elements gets a third. *)
Lemma add_appends_witness :
  and_then (add (Some (IntElement 3))) (λ _, get_int 2)
    (ListElement [Some (IntElement 1); Some (IntElement 2)])
  = Returns (Some (IntElement 3))
      (ListElement [Some (IntElement 1); Some (IntElement 2); Some (IntElement 3)]).
Proof.
  apply (add_appends [Some (IntElement 1); Some (IntElement 2)]
           (Some (IntElement 3))).
  unfold StdVector.size, Cxx.int_max. simpl. lia.
Defined.

Lemma run_all_add (es l : vector) :
  run_all (c_add <$> es) (ListElement l) = Returns () (ListElement (l ++ es)).
Proof.
  revert l. induction es as [|e es IH]; intros l; simpl.
  - by rewrite app_nil_r.
  - unfold StdVector.push_back. rewrite IH. by rewrite <-app_assoc.
Qed.

(** Handles added one after the other stay in the order in which they
    were added, behind the handles the list already held. *)
Theorem adds_keep_order (es l : vector) :
  and_then (run_all (c_add <$> es)) (λ _, listValue) (ListElement l)
  = Returns (l ++ es) (ListElement (l ++ es)).
Proof. unfold and_then. by rewrite run_all_add. Qed.

(** [set] at an index of the list followed by [get] at that index returns
    the handle set; the size is as it was, and [get] at every other index
    returns what it returned before. *)
Theorem set_int_then_get_int (l : vector) (i : Z) (e : ElementPtr) :
  indexes l i →
  and_then (set_int i e) (λ _, get_int i) (ListElement l)
  = Returns e (ListElement (<[Z.to_nat i := e]> l))
  ∧ and_then (set_int i e) (λ _, size) (ListElement l)
    = Returns (StdVector.size l) (ListElement (<[Z.to_nat i := e]> l))
  ∧ ∀ j, 0 ≤ j ≤ Cxx.int_max → j ≠ i →
         value_of (and_then (set_int i e) (λ _, get_int j) (ListElement l))
         = value_of (get_int j (ListElement l)).
Proof.
  intros [Hi Hmax]. unfold and_then. rewrite set_int_in_range by done.
  unfold StdVector.size in Hi. split; [|split].
  - rewrite get_int_lookup by lia.
    rewrite list_lookup_insert_eq; [done|lia].
  - simpl. unfold StdVector.size. by rewrite length_insert.
  - intros j Hj Hne. rewrite !value_of_get_int by lia.
    apply list_lookup_insert_ne. lia.
Qed.

(** The second of three elements is replaced. *)
Lemma set_int_then_get_int_witness :
  and_then (set_int 1 None) (λ _, get_int 1)
    (ListElement [Some (IntElement 1); Some (IntElement 2); Some (IntElement 3)])
  = Returns None
      (ListElement [Some (IntElement 1); None; Some (IntElement 3)]).
Proof.
  apply (set_int_then_get_int
           [Some (IntElement 1); Some (IntElement 2); Some (IntElement 3)] 1 None).
  unfold indexes, StdVector.size, Cxx.int_max. simpl. lia.
Defined.

(** [remove] at an index of the list shortens the list by one: [get]
    below the index returns what it returned before, and [get] at the
    index or above returns what [get] one position higher returned
    before (or throws, where that threw). *)
Theorem remove_int_shifts (l : vector) (i : Z) :
  indexes l i →
  and_then (remove_int i) (λ _, size) (ListElement l)
  = Returns (StdVector.size l - 1) (ListElement (delete (Z.to_nat i) l))
  ∧ (∀ j, 0 ≤ j < i →
          value_of (and_then (remove_int i) (λ _, get_int j) (ListElement l))
          = value_of (get_int j (ListElement l)))
  ∧ (∀ j, i ≤ j < Cxx.int_max →
          value_of (and_then (remove_int i) (λ _, get_int j) (ListElement l))
          = value_of (get_int (j + 1) (ListElement l))).
Proof.
  intros [Hi Hmax]. unfold and_then. rewrite remove_int_in_range by done.
  unfold StdVector.size in Hi. split; [|split].
  - simpl. unfold StdVector.size. rewrite length_delete.
    + f_equal. lia.
    + apply lookup_lt_is_Some. lia.
  - intros j Hj. rewrite !value_of_get_int by lia.
    apply list_lookup_delete_lt. lia.
  - intros j Hj. rewrite !value_of_get_int by lia.
    rewrite list_lookup_delete_ge by lia. f_equal. lia.
Qed.

(** The first of three elements is removed. *)
Lemma remove_int_shifts_witness :
  and_then (remove_int 0) (λ _, size)
    (ListElement [Some (IntElement 1); Some (IntElement 2); Some (IntElement 3)])
  = Returns 2 (ListElement [Some (IntElement 2); Some (IntElement 3)]).
Proof.
  apply (remove_int_shifts
           [Some (IntElement 1); Some (IntElement 2); Some (IntElement 3)] 0).
  unfold indexes, StdVector.size, Cxx.int_max. simpl. lia.
Defined.

(** [add] followed by [remove] at the index the handle was added at
    leaves the list as it was. *)
Theorem add_then_remove_last (l : vector) (e : ElementPtr) :
  StdVector.size l ≤ Cxx.int_max →
  and_then (add e) (λ _, remove_int (StdVector.size l)) (ListElement l)
  = Returns () (ListElement l).
Proof.
  intros Hl. unfold and_then, add, StdVector.push_back.
  rewrite remove_int_in_range by (rewrite size_app_one; unfold StdVector.size; lia).
  unfold StdVector.size. rewrite Nat2Z.id, delete_middle. by rewrite app_nil_r.
Qed.

(** A handle is added to a list of one element and removed again. *)
Lemma add_then_remove_last_witness :
  and_then (add None) (λ _, remove_int 1) (ListElement [Some (IntElement 7)])
  = Returns () (ListElement [Some (IntElement 7)]).
Proof.
  apply (add_then_remove_last [Some (IntElement 7)] None).
  unfold StdVector.size, Cxx.int_max. simpl. lia.
Defined.

(** A negative [int] passed to [set] is converted to its [size_t]
    parameter and lands beyond any size a vector can have: [set] throws
    [std::out_of_range] and leaves the list as it was. *)
Theorem set_int_negative (l : vector) (i : Z) (e : ElementPtr) :
  Cxx.is_int i → i < 0 → StdVector.size l ≤ StdVector.max_size →
  set_int (Cxx.to_size_t i) e (ListElement l)
  = Throws (out_of_range "vector::_M_range_check") (ListElement l).
Proof.
  unfold Cxx.is_int, Cxx.int_min, Cxx.int_max, StdVector.max_size, Cxx.to_size_t.
  change (2 ^ 31) with 2147483648.
  change ((2 ^ 63 - 1) `div` 16) with 576460752303423487.
  change (2 ^ 64) with 18446744073709551616.
  intros Hi Hneg Hl. simpl.
  replace (i `mod` 18446744073709551616) with (i + 18446744073709551616)
    by (apply Z.mod_unique with (-1); lia).
  rewrite bool_decide_eq_false_2; [done|lia].
Qed.

(** [set(-1, e)] on a list of one element. *)
Lemma set_int_negative_witness :
  set_int (Cxx.to_size_t (-1)) None (ListElement [Some (IntElement 7)])
  = Throws (out_of_range "vector::_M_range_check")
      (ListElement [Some (IntElement 7)]).
Proof.
  apply (set_int_negative [Some (IntElement 7)] (-1) None).
  - unfold Cxx.is_int, Cxx.int_min, Cxx.int_max. simpl. lia.
  - lia.
  - unfold StdVector.size, StdVector.max_size.
    change ((2 ^ 63 - 1) `div` 16) with 576460752303423487. simpl. lia.
Defined.

(** On an element that is not a list every list member throws
    [TypeError] and leaves the element as it was. *)
Theorem list_members_on_non_list (e : Element) (i : Z) (p : ElementPtr) :
  getType e ≠ t_list →
  get_int i e = Throws (TypeError "get(int) called on a non-list Element") e
  ∧ set_int i p e
    = Throws (TypeError "set(int, element) called on a non-list Element") e
  ∧ add p e = Throws (TypeError "add() called on a non-list Element") e
  ∧ remove_int i e
    = Throws (TypeError "remove(int) called on a non-list Element") e
  ∧ size e = Throws (TypeError "size() called on a non-list Element") e.
Proof. destruct e; simpl; intros H; done. Qed.

(** The list members on a map. *)
Lemma list_members_on_non_list_witness :
  get_int 0 (MapElement ∅)
  = Throws (TypeError "get(int) called on a non-list Element") (MapElement ∅).
Proof. apply (list_members_on_non_list (MapElement ∅) 0 None). discriminate. Defined.

(** On an element that is not a map every keyed member throws
    [TypeError] and leaves the element as it was. *)
Theorem map_members_on_non_map (e : Element) (s : string) (p : ElementPtr) :
  getType e ≠ t_map →
  get_string s e = Throws (TypeError "get(string) called on a non-map Element") e
  ∧ set_string s p e
    = Throws (TypeError "set(name, element) called on a non-map Element") e
  ∧ remove_string s e
    = Throws (TypeError "remove(string) called on a non-map Element") e
  ∧ contains s e
    = Throws (TypeError "contains(string) called on a non-map Element") e.
Proof. destruct e; simpl; intros H; done. Qed.

(** The keyed members on a list. *)
Lemma map_members_on_non_map_witness :
  get_string "a" (ListElement [])
  = Throws (TypeError "get(string) called on a non-map Element") (ListElement []).
Proof. apply (map_members_on_non_map (ListElement []) "a" None). discriminate. Defined.

(** ** Maps: how the members compose *)

Lemma value_of_get_string (m : std_map) (k : string) :
  value_of (get_string k (MapElement m)) = Some (default None (m !! k)).
Proof. simpl. unfold StdMap.index. by destruct (m !! k). Qed.

Lemma value_of_contains (m : std_map) (k : string) :
  value_of (contains k (MapElement m)) = Some (bool_decide (is_Some (m !! k))).
Proof. reflexivity. Qed.

(** [set] binds the key: [get] of that key then returns the handle set
    and changes nothing more, [contains] answers true (also for a null
    handle), and [get] and [contains] of any other key answer as they
    did before. *)
Theorem set_string_then_get_string (m : std_map) (k : string) (p : ElementPtr) :
  and_then (set_string k p) (λ _, get_string k) (MapElement m)
  = Returns p (MapElement (<[k := p]> m))
  ∧ and_then (set_string k p) (λ _, contains k) (MapElement m)
    = Returns true (MapElement (<[k := p]> m))
  ∧ ∀ k', k' ≠ k →
      value_of (and_then (set_string k p) (λ _, get_string k') (MapElement m))
      = value_of (get_string k' (MapElement m))
      ∧ value_of (and_then (set_string k p) (λ _, contains k') (MapElement m))
        = value_of (contains k' (MapElement m)).
Proof.
  unfold and_then, set_string, StdMap.assign. split; [|split].
  - apply get_string_present, lookup_insert_eq.
  - simpl. unfold StdMap.has. rewrite lookup_insert_eq.
    by rewrite bool_decide_eq_true_2.
  - intros k' Hne.
    rewrite !value_of_get_string, !value_of_contains.
    by rewrite lookup_insert_ne.
Qed.

(** [remove] unbinds the key: [contains] then answers false, and [get]
    and [contains] of any other key answer as they did before. *)
Theorem remove_string_then_contains (m : std_map) (k : string) :
  and_then (remove_string k) (λ _, contains k) (MapElement m)
  = Returns false (MapElement (delete k m))
  ∧ (∀ k', k' ≠ k →
       value_of (and_then (remove_string k) (λ _, get_string k') (MapElement m))
       = value_of (get_string k' (MapElement m))
       ∧ value_of (and_then (remove_string k) (λ _, contains k') (MapElement m))
         = value_of (contains k' (MapElement m))).
Proof.
  unfold and_then, remove_string, StdMap.erase. split.
  - simpl. unfold StdMap.has. rewrite lookup_delete_eq.
    rewrite bool_decide_eq_false_2; [done|]. by intros [? ?].
  - intros k' Hne.
    rewrite !value_of_get_string, !value_of_contains.
    by rewrite lookup_delete_ne.
Qed.

(** [remove] of a key the map does not hold throws nothing and leaves the
    map as it was. *)
Theorem remove_string_absent (m : std_map) (k : string) :
  m !! k = None → remove_string k (MapElement m) = Returns () (MapElement m).
Proof. intros Hk. simpl. unfold StdMap.erase. by rewrite delete_id. Qed.

(** [b] is removed from a map that holds only [a]. *)
Lemma remove_string_absent_witness :
  remove_string "b" (MapElement {["a" := Some (IntElement 1)]})
  = Returns () (MapElement {["a" := Some (IntElement 1)]}).
Proof.
  apply (remove_string_absent {["a" := Some (IntElement 1)]} "b"). reflexivity.
Defined.

(** After [get] the key is bound, whether it was before or not:
    [contains] answers true. *)
Theorem get_string_then_contains (m : std_map) (k : string) :
  value_of (and_then (get_string k) (λ _, contains k) (MapElement m))
  = Some true.
Proof.
  unfold and_then. simpl. unfold StdMap.index.
  destruct (m !! k) as [p|] eqn:Hk; simpl; unfold StdMap.has.
  - rewrite Hk. by rewrite bool_decide_eq_true_2.
  - rewrite lookup_insert_eq. by rewrite bool_decide_eq_true_2.
Qed.

(** A second [get] of the same key returns the handle the first returned
    and leaves the map as the first left it. *)
Theorem get_string_twice (m : std_map) (k : string) :
  ∃ p this',
    get_string k (MapElement m) = Returns p this'
    ∧ get_string k this' = Returns p this'.
Proof.
  destruct (m !! k) as [p|] eqn:Hk.
  - exists p, (MapElement m). split; by apply get_string_present.
  - exists None, (MapElement (<[k := None]> m)). split.
    + simpl. unfold StdMap.index. by rewrite Hk.
    + apply get_string_present, lookup_insert_eq.
Qed.

(** [remove] followed by [get] of the same key returns the null handle
    and binds the key again, to that null handle. *)
Theorem remove_string_then_get_string (m : std_map) (k : string) :
  and_then (remove_string k) (λ _, get_string k) (MapElement m)
  = Returns None (MapElement (<[k := None]> m))
  ∧ and_then (remove_string k)
      (λ _, and_then (get_string k) (λ _, contains k)) (MapElement m)
    = Returns true (MapElement (<[k := None]> m)).
Proof.
  unfold and_then, remove_string, StdMap.erase. simpl. unfold StdMap.index.
  rewrite lookup_delete_eq, insert_delete_eq. split; [done|].
  simpl. unfold StdMap.has. rewrite lookup_insert_eq.
  by rewrite bool_decide_eq_true_2.
Qed.

(** A second [set] of the same key replaces the first: the map is as if
    only the second had been called. *)
Theorem set_string_twice (m : std_map) (k : string) (p q : ElementPtr) :
  and_then (set_string k p) (λ _, set_string k q) (MapElement m)
  = set_string k q (MapElement m).
Proof.
  unfold and_then, set_string, StdMap.assign. by rewrite insert_insert_eq.
Qed.

(** [set] of a key the map does not hold followed by [remove] of that key
    leaves the map as it was. *)
Theorem set_string_then_remove_string (m : std_map) (k : string)
    (p : ElementPtr) :
  m !! k = None →
  and_then (set_string k p) (λ _, remove_string k) (MapElement m)
  = Returns () (MapElement m).
Proof.
  intros Hk. unfold and_then, set_string, remove_string.
  unfold StdMap.assign, StdMap.erase. by rewrite delete_insert_id.
Qed.

(** [b] is set and removed in a map that holds [a]. *)
Lemma set_string_then_remove_string_witness :
  and_then (set_string "b" None) (λ _, remove_string "b")
    (MapElement {["a" := Some (IntElement 1)]})
  = Returns () (MapElement {["a" := Some (IntElement 1)]}).
Proof.
  apply (set_string_then_remove_string {["a" := Some (IntElement 1)]} "b" None).
  reflexivity.
Defined.

(** ** The getters and setters together *)

(** [setValue] with an argument of the element's type followed by
    [getValue] into a variable of that type returns true and the value
    set, for every element that is not a map. *)
Theorem setValue_then_getValue (v t : value) (e : Element) :
  value_type v = getType e → getType e ≠ t_map →
  value_type t = value_type v →
  value_of (and_then (setValue v) (λ _, getValue t) e) = Some (true, v).
Proof.
  destruct v, e; simpl; intros Hv Hm Ht; try done;
    destruct t; simpl in Ht; try done.
Qed.

(** A list element takes a new vector. *)
Lemma setValue_then_getValue_witness :
  value_of (and_then (setValue (v_vector [None])) (λ _, getValue (v_vector []))
              (ListElement [Some (IntElement 1)]))
  = Some (true, v_vector [None]).
Proof.
  apply (setValue_then_getValue (v_vector [None]) (v_vector [])
           (ListElement [Some (IntElement 1)]));
    [reflexivity | discriminate | reflexivity].
Defined.

(** The throwing getter and the exception-safe getter of one type agree
    on every element: where the first returns a payload the second
    returns true and that payload, and where the first throws (always
    [TypeError]) the second returns false and leaves its variable as it
    was. *)
Theorem accessor_agrees_with_getValue (t : value) (e : Element) :
  match accessor_value (accessor_of (value_type t)) e with
  | Returns v this => this = e ∧ getValue t e = Returns (true, v) e
  | Throws x this =>
      this = e ∧ is_TypeError x = true ∧ getValue t e = Returns (false, t) e
  | Undefined => False
  end.
Proof. destruct t, e; simpl; auto. Qed.

(** Through the interface of [Element] no [setValue] overload changes a
    map element: each returns false and leaves the map as it was. *)
Theorem setValue_on_MapElement (v : value) (m : std_map) :
  setValue v (MapElement m) = Returns false (MapElement m).
Proof. by destruct v. Qed.
